(** * The cart data hook of type-safe-graphql-mocks-msw

    A shallow embedding of [src/GetCartById.ts], [src/useCart.ts] and
    [pages/index.tsx]: the static GraphQL operation, the [useCart] hook
    (one piece of React state, one effect that issues a [fetch]) and the
    [Home] page that renders the cart's item count.

    JavaScript strings are modelled as [string]; every [ascii] stands for
    one code unit in the range 0..255.  Numbers are modelled as integers
    ([Z]), which is what the cart data carries; an integer stands for a
    JavaScript number when it is a safe integer ([safe_integer]), and
    what is stated of numbers is stated of those. *)

From Stdlib Require Import ZArith List String Ascii Bool Lia.
From Stdlib Require Import DecimalString.
From Stdlib Require DecimalZ.
Import ListNotations.
Local Open Scope string_scope.

(** ** JavaScript values *)

#[local] Set Warnings "-register-all".

Module JS.

(** The values a [JSON.parse] result, or a piece of React state holding
    one, can take.  An object is the list of its own properties in
    enumeration order. *)
Inductive value : Type :=
| VUndefined
| VNull
| VBool (b : bool)
| VNum (n : Z)
| VStr (s : string)
| VArr (elems : list value)
| VObj (props : list (string * value)).

(** Own-property lookup in an object's property list. *)
Fixpoint lookup (k : string) (props : list (string * value)) : option value :=
  match props with
  | [] => None
  | (k', v) :: rest => if String.eqb k k' then Some v else lookup k rest
  end.

(** [nullish v]: [v] is [undefined] or [null]; reading a property of such
    a value, or destructuring it, throws a TypeError. *)
Definition nullish (v : value) : bool :=
  match v with
  | VUndefined | VNull => true
  | _ => false
  end.

(** [get v k] is the property read [v.k] on a value that is not nullish,
    for a name [k] that no prototype defines (here: data, cart,
    totalItems): an own property of an object, [undefined] otherwise. *)
Definition get (v : value) (k : string) : value :=
  match v with
  | VObj props => match lookup k props with
                  | Some x => x
                  | None => VUndefined
                  end
  | _ => VUndefined
  end.

(** [v?.k]: optional chaining. *)
Definition get_opt (v : value) (k : string) : value :=
  if nullish v then VUndefined else get v k.

(** [Number.MAX_SAFE_INTEGER], 2^53 - 1: up to it, in absolute value,
    every integer is a JavaScript number. *)
Definition MAX_SAFE_INTEGER : Z := 9007199254740991.

Definition safe_integer (n : Z) : bool :=
  (Z.abs n <=? MAX_SAFE_INTEGER)%Z.

(** Number::toString on a safe integer: its decimal digits, after a
    minus sign when it is negative.  (A number from 10^21 on is written
    with an exponent; no safe integer is that large.) *)
Definition string_of_Z (n : Z) : string :=
  NilZero.string_of_int (Z.to_int n).

End JS.

(** ** JSON.stringify *)

Module JSON.
Import JS.

Definition hex_digit (n : N) : ascii :=
  if (n <? 10)%N then ascii_of_N (48 + n) else ascii_of_N (87 + n).

(** The escape of one code unit (QuoteJSONString): the two-character
    escapes, [\u00xx] for the other control characters, and the code unit
    itself otherwise. *)
Definition escape_char (c : ascii) : string :=
  let n := N_of_ascii c in
  if (n =? 8)%N then "\b"
  else if (n =? 9)%N then "\t"
  else if (n =? 10)%N then "\n"
  else if (n =? 12)%N then "\f"
  else if (n =? 13)%N then "\r"
  else if (n =? 34)%N then String "\" (String c EmptyString)
  else if (n =? 92)%N then "\\"
  else if (n <? 32)%N then
    "\u00" ++ String (hex_digit (n / 16)) (String (hex_digit (n mod 16)) EmptyString)
  else String c EmptyString.

Fixpoint escape (s : string) : string :=
  match s with
  | EmptyString => EmptyString
  | String c rest => escape_char c ++ escape rest
  end.

Definition dquote : ascii := ascii_of_N 34.

Definition QuoteJSONString (s : string) : string :=
  String dquote (escape s ++ String dquote EmptyString).

Fixpoint join (l : list string) : string :=
  match l with
  | [] => EmptyString
  | [x] => x
  | x :: rest => x ++ "," ++ join rest
  end.

(** SerializeJSONProperty: [None] is the result [undefined].  A property
    whose value serializes to [undefined] is left out of an object; such
    an array element is written [null]. *)
Fixpoint SerializeJSONProperty (v : value) : option string :=
  match v with
  | VUndefined => None
  | VNull => Some "null"
  | VBool true => Some "true"
  | VBool false => Some "false"
  | VNum n => Some (string_of_Z n)
  | VStr s => Some (QuoteJSONString s)
  | VArr elems =>
      Some ("[" ++ join (map (fun x => match SerializeJSONProperty x with
                                       | Some t => t
                                       | None => "null"
                                       end) elems) ++ "]")
  | VObj props =>
      Some ("{" ++ join (flat_map (fun kx => match kx with
                                            | (k, x) =>
                                                match SerializeJSONProperty x with
                                                | Some t => [QuoteJSONString k ++ ":" ++ t]
                                                | None => []
                                                end
                                            end) props) ++ "}")
  end.

Definition stringify (v : value) : option string := SerializeJSONProperty v.

(** *** Reading a string literal back

    The string production of the JSON grammar, as [JSON.parse] reads it:
    used to state what a serialized body holds. *)

Definition hex_val (c : ascii) : option N :=
  let n := N_of_ascii c in
  if (48 <=? n)%N && (n <=? 57)%N then Some (n - 48)%N
  else if (97 <=? n)%N && (n <=? 102)%N then Some (n - 87)%N
  else if (65 <=? n)%N && (n <=? 70)%N then Some (n - 55)%N
  else None.

(** The code unit written [\uh1h2h3h4], when it is below 256. *)
Definition hex4 (h1 h2 h3 h4 : ascii) : option ascii :=
  match hex_val h1, hex_val h2, hex_val h3, hex_val h4 with
  | Some a, Some b, Some c, Some d =>
      let n := (((a * 16 + b) * 16 + c) * 16 + d)%N in
      if (n <? 256)%N then Some (ascii_of_N n) else None
  | _, _, _, _ => None
  end.

Definition unescape (e : ascii) : option ascii :=
  let n := N_of_ascii e in
  if (n =? 98)%N then Some (ascii_of_N 8)
  else if (n =? 116)%N then Some (ascii_of_N 9)
  else if (n =? 110)%N then Some (ascii_of_N 10)
  else if (n =? 102)%N then Some (ascii_of_N 12)
  else if (n =? 114)%N then Some (ascii_of_N 13)
  else if (n =? 34)%N || (n =? 92)%N || (n =? 47)%N then Some e
  else None.

Definition push (c : ascii) (r : option (string * string)) : option (string * string) :=
  match r with
  | Some (s, rest) => Some (String c s, rest)
  | None => None
  end.

(** The characters up to the closing quote, and the text after it. *)
Fixpoint read_chars (s : string) : option (string * string) :=
  match s with
  | EmptyString => None
  | String c rest =>
      let n := N_of_ascii c in
      if (n =? 34)%N then Some (EmptyString, rest)
      else if (n =? 92)%N then
        match rest with
        | EmptyString => None
        | String e rest1 =>
            if (N_of_ascii e =? 117)%N then
              match rest1 with
              | String h1 (String h2 (String h3 (String h4 rest2))) =>
                  match hex4 h1 h2 h3 h4 with
                  | Some c' => push c' (read_chars rest2)
                  | None => None
                  end
              | _ => None
              end
            else
              match unescape e with
              | Some c' => push c' (read_chars rest1)
              | None => None
              end
        end
      else if (n <? 32)%N then None
      else push c (read_chars rest)
  end.

Definition read_string (s : string) : option (string * string) :=
  match s with
  | String c rest => if (N_of_ascii c =? 34)%N then read_chars rest else None
  | EmptyString => None
  end.

End JSON.

(** ** The query definition ([src/GetCartById.ts]) *)

Module GetCartById.

Definition LF : string := String (ascii_of_N 10) EmptyString.

Fixpoint unlines (l : list string) : string :=
  match l with
  | [] => EmptyString
  | [x] => x
  | x :: rest => x ++ LF ++ unlines rest
  end.

(** The template literal tagged with [String] and holding no
    substitution is its own text, from the line break after the opening
    backtick to the one before the closing backtick. *)
Definition getCartById : string := Eval cbv in
  unlines
    [ "";
      "  query GetCartById($id: ID!) {";
      "    cart(id: $id) {";
      "      totalItems";
      "      subTotal {";
      "        amount";
      "        formatted";
      "      }";
      "      items {";
      "        id";
      "        name";
      "        quantity";
      "        unitTotal {";
      "          formatted";
      "        }";
      "      }";
      "    }";
      "  }";
      "" ].

End GetCartById.

(** ** The cart data hook ([src/useCart.ts]) *)

Module UseCart.
Import JS JSON GetCartById.

(** What [fetch] is called with. *)
Record request : Type := mkRequest {
  url : string;
  method : string;
  headers : list (string * string);
  body : option string
}.

(** One entry of the effect's dependency array [[body, setCart]]. The
    setter returned by [useState] is the same function on every render. *)
Inductive dep : Type :=
| DBody (b : option string)
| DSetCart.

(** One mounted instance of the hook together with its network traffic:
    the state cell of [useState], the dependency array of the last effect
    that ran ([None] before the first), the requests awaiting an answer
    and every request sent so far, oldest first. *)
Record instance : Type := mkInstance {
  cart : value;
  deps : option (list dep);
  inflight : list request;
  sent : list request
}.

(** A freshly mounted instance: [useState()] starts at [undefined]. *)
Definition mount : instance :=
  {| cart := VUndefined; deps := None; inflight := []; sent := [] |}.

Definition option_string_eqb (a b : option string) : bool :=
  match a, b with
  | Some x, Some y => String.eqb x y
  | None, None => true
  | _, _ => false
  end.

(** [Object.is] on two dependency entries. *)
Definition dep_is (a b : dep) : bool :=
  match a, b with
  | DBody x, DBody y => option_string_eqb x y
  | DSetCart, DSetCart => true
  | _, _ => false
  end.

Fixpoint areHookInputsEqual (next prev : list dep) : bool :=
  match next, prev with
  | [], [] => true
  | a :: next', b :: prev' => dep_is a b && areHookInputsEqual next' prev'
  | _, _ => false
  end.

(** [fetch(url, init)]: the request leaves and awaits its answer. *)
Definition fetch (r : request) (w : instance) : instance :=
  {| cart := cart w;
     deps := deps w;
     inflight := inflight w ++ [r];
     sent := sent w ++ [r] |}.

(** [useEffect(effect, next)]: the effect runs after the first render
    and after a render whose dependencies differ from the last ones
    (once each time, as in a production build). *)
Definition useEffect (effect : instance -> instance) (next : list dep)
    (w : instance) : instance :=
  let run := match deps w with
             | None => true
             | Some prev => negb (areHookInputsEqual next prev)
             end in
  if run then
    let w' := effect w in
    {| cart := cart w'; deps := Some next;
       inflight := inflight w'; sent := sent w' |}
  else w.

Definition endpoint : string := "https://api.cartql.com".

Definition cart_body (id : string) : option string :=
  stringify (VObj [("query", VStr getCartById);
                   ("variables", VObj [("id", VStr id)])]).

(** The text of that body written out: the two members of the object,
    the second holding the one member [id]. *)
Definition body_text (id : string) : string :=
  "{" ++ QuoteJSONString "query" ++ ":" ++ QuoteJSONString getCartById
      ++ "," ++ QuoteJSONString "variables" ++ ":"
      ++ "{" ++ QuoteJSONString "id" ++ ":" ++ QuoteJSONString id ++ "}}".

Definition cart_request (b : option string) : request :=
  {| url := endpoint;
     method := "POST";
     headers := [("Content-Type", "application/json")];
     body := b |}.

(** One call of [useCart(id)], that is one render: the value returned
    is the state cell as it stands, and the effect runs afterwards. *)
Definition useCart (id : string) (w : instance) : value * instance :=
  let body := cart_body id in
  (cart w, useEffect (fetch (cart_request body)) [DBody body; DSetCart] w).

(** *** Answers *)

Inductive error : Type :=
| NetworkFailure   (* [fetch] rejected *)
| SyntaxError      (* [res.json()] rejected: the body is not JSON *)
| TypeError.       (* a property of [undefined] or [null] was read *)

(** How the promise chain of one request ends.  Nothing is chained after
    the second [then], so a rejection reaches no handler. *)
Inductive settled : Type :=
| Fulfilled
| Rejected (e : error).

(** What the network does with a request: the connection fails, or a
    response arrives with a status and a body that [res.json()] parses
    ([Some]) or not ([None]). *)
Inductive outcome : Type :=
| Failed
| Responded (status : Z) (json : option value).

Definition setCart (v : value) (w : instance) : instance :=
  {| cart := v; deps := deps w; inflight := inflight w; sent := sent w |}.

(** The second handler: [({ data }) => { setCart(data.cart); }]. *)
Definition on_json (j : value) (w : instance) : instance * settled :=
  if nullish j then (w, Rejected TypeError)
  else
    let data := get j "data" in
    if nullish data then (w, Rejected TypeError)
    else (setCart (get data "cart") w, Fulfilled).

(** The whole chain [fetch(...).then(res => res.json()).then(...)]. *)
Definition settle (o : outcome) (w : instance) : instance * settled :=
  match o with
  | Failed => (w, Rejected NetworkFailure)
  | Responded _ None => (w, Rejected SyntaxError)
  | Responded _ (Some j) => on_json j w
  end.

Fixpoint remove_nth {A : Type} (k : nat) (l : list A) : list A :=
  match k, l with
  | _, [] => []
  | O, _ :: rest => rest
  | S k', x :: rest => x :: remove_nth k' rest
  end.

(** *** Lifetime of an instance *)

(** The component renders with some identifier, or the [k]-th request in
    flight is answered. *)
Inductive event : Type :=
| Render (id : string)
| Settle (k : nat) (o : outcome).

Definition step (e : event) (w : instance) : instance :=
  match e with
  | Render id => snd (useCart id w)
  | Settle k o =>
      match nth_error (inflight w) k with
      | None => w
      | Some _ =>
          fst (settle o {| cart := cart w; deps := deps w;
                           inflight := remove_nth k (inflight w);
                           sent := sent w |})
      end
  end.

Fixpoint run (tr : list event) (w : instance) : instance :=
  match tr with
  | [] => w
  | e :: rest => run rest (step e w)
  end.

(** The identifiers the trace renders with, in order. *)
Fixpoint rendered (tr : list event) : list string :=
  match tr with
  | [] => []
  | Render id :: rest => id :: rendered rest
  | Settle _ _ :: rest => rendered rest
  end.

(** *** Vocabulary of the properties *)

(** The identifiers at which a sequence of renders changes identifier,
    the first render included; [prev] is the identifier before it. *)
Fixpoint changes (prev : option string) (ids : list string) : list string :=
  match ids with
  | [] => []
  | id :: rest =>
      let same := match prev with
                  | Some p => String.eqb id p
                  | None => false
                  end in
      if same then changes (Some id) rest else id :: changes (Some id) rest
  end.

(** The dependency array an instance holds once its last effect ran for
    identifier [last]. *)
Definition deps_after (last : option string) : option (list dep) :=
  match last with
  | Some id => Some [DBody (cart_body id); DSetCart]
  | None => None
  end.

(** The value an answer makes the chain pass to [setCart], when the
    chain gets that far. *)
Definition writes (o : outcome) : option value :=
  match o with
  | Responded _ (Some j) =>
      if nullish j then None
      else if nullish (get j "data") then None
      else Some (get (get j "data") "cart")
  | _ => None
  end.

(** The values the answers of a trace carry in [data.cart]. *)
Fixpoint answered (tr : list event) : list value :=
  match tr with
  | [] => []
  | Settle _ o :: rest =>
      match writes o with
      | Some v => v :: answered rest
      | None => answered rest
      end
  | Render _ :: rest => answered rest
  end.

(** The shape the operation's selection set describes: [totalItems],
    [subTotal { amount formatted }] and
    [items { id name quantity unitTotal { formatted } }].  The cart's
    identifier is the variable of the request and is not selected. *)
Definition is_num (v : value) : bool :=
  match v with
  | VNum _ => true
  | _ => false
  end.

Definition is_str (v : value) : bool :=
  match v with
  | VStr _ => true
  | _ => false
  end.

Definition is_item (v : value) : bool :=
  is_str (get v "id") && is_str (get v "name") && is_num (get v "quantity")
  && is_str (get (get v "unitTotal") "formatted").

Definition is_Cart (v : value) : bool :=
  is_num (get v "totalItems")
  && is_num (get (get v "subTotal") "amount")
  && is_str (get (get v "subTotal") "formatted")
  && match get v "items" with
     | VArr items => forallb is_item items
     | _ => false
     end.

End UseCart.

(** ** The mocked service of the tests *)

Module Mock.
Import JS UseCart.

(** [res(ctx.data(payload))]: a 200 response whose body is the object
    with the one member [data]. *)
Definition ctx_data (payload : value) : outcome :=
  Responded 200 (Some (VObj [("data", payload)])).

(** The first mock: [{ cart: { totalItems: 10 } }]. *)
Definition partial_payload : value :=
  VObj [("cart", VObj [("totalItems", VNum 10)])].

Definition pound : string := String (ascii_of_N 163) EmptyString.

(** The typed mock, with every selected field. *)
Definition full_payload : value :=
  VObj [("cart",
         VObj [("totalItems", VNum 10);
               ("subTotal", VObj [("amount", VNum 20000);
                                  ("formatted", VStr (pound ++ "200.00"))]);
               ("items",
                VArr [VObj [("id", VStr "5e3293a3462051");
                            ("name", VStr "Full Logo Tee");
                            ("quantity", VNum 10);
                            ("unitTotal",
                             VObj [("formatted", VStr (pound ++ "20.00"))])]])])].

End Mock.

(** ** The page ([pages/index.tsx]) *)

Module Page.
Import JS UseCart.

(** The text React puts in the document for a child expression:
    nothing for [undefined], [null] and booleans, the digits of a number,
    a string as it is, the children of an array one after the other; an
    object is not a valid child and rendering throws ([None]). *)
Fixpoint child_text (v : value) : option string :=
  match v with
  | VUndefined | VNull | VBool _ => Some EmptyString
  | VNum n => Some (string_of_Z n)
  | VStr s => Some s
  | VArr elems =>
      fold_right (fun x acc => match child_text x, acc with
                               | Some a, Some b => Some (a ++ b)
                               | _, _ => None
                               end) (Some EmptyString) elems
  | VObj _ => None
  end.

Definition cartId : string := "ck5r8d5b500003f5o2aif0v2b".

(** [<div>Total items: {cart?.totalItems}</div>]: the text of the element,
    or [None] when rendering throws. *)
Definition Home (w : instance) : option string * instance :=
  let (cart, w') := useCart cartId w in
  (match child_text (get_opt cart "totalItems") with
   | Some t => Some ("Total items: " ++ t)
   | None => None
   end, w').

End Page.

(** ** Lifetime of the page *)

Module PageLife.
Import JS UseCart Page.

(** The page is painted ([Home] runs), or the [k]-th request in flight
    is answered. *)
Inductive page_event : Type :=
| Paint
| Answer (k : nat) (o : outcome).

Definition page_step (e : page_event) (w : instance) : instance :=
  match e with
  | Paint => snd (Home w)
  | Answer k o => step (Settle k o) w
  end.

Fixpoint page_run (tr : list page_event) (w : instance) : instance :=
  match tr with
  | [] => w
  | e :: rest => page_run rest (page_step e w)
  end.

(** What the page shows when painted in state [w]. *)
Definition page_text (w : instance) : option string := fst (Home w).

Definition is_paint (e : page_event) : bool :=
  match e with
  | Paint => true
  | Answer _ _ => false
  end.

(** An event that leaves the state cell alone: a paint, or an answer
    whose chain never reaches [setCart]. *)
Definition quiet (e : page_event) : bool :=
  match e with
  | Paint => true
  | Answer _ o => match writes o with
                  | Some _ => false
                  | None => true
                  end
  end.

(** The same event, seen by the hook. *)
Definition hook_event (e : page_event) : event :=
  match e with
  | Paint => Render cartId
  | Answer k o => Settle k o
  end.

(** No code unit of [s] is a control character (below 32). *)
Fixpoint no_control (s : string) : bool :=
  match s with
  | EmptyString => true
  | String c rest => (32 <=? N_of_ascii c)%N && no_control rest
  end.

(** [v] is an object, or an array holding one at some depth: what React
    refuses as a child. *)
Fixpoint holds_object (v : value) : bool :=
  match v with
  | VObj _ => true
  | VArr elems => existsb holds_object elems
  | _ => false
  end.

End PageLife.

(** ** Reading a request back *)

Module Wire.
Import JS JSON UseCart.

(** [s] without its prefix [lit], when it starts with it. *)
Fixpoint strip (lit s : string) : option string :=
  match lit with
  | EmptyString => Some s
  | String c lit' =>
      match s with
      | String d s' => if Ascii.eqb c d then strip lit' s' else None
      | EmptyString => None
      end
  end.

(** The string literal at the head of [s] when it is the literal of
    [name], and the text after it. *)
Definition read_name (name s : string) : option string :=
  match read_string s with
  | Some (k, rest) => if String.eqb k name then Some rest else None
  | None => None
  end.

Definition bind {A B : Type} (x : option A) (f : A -> option B) : option B :=
  match x with
  | Some a => f a
  | None => None
  end.

(** What [JSON.parse(b).variables.id] is for a text [b] of the shape
    [{ query: <string>, variables: { id: <string> } }] written without
    white space; [None] for any other text. *)
Definition body_id (b : string) : option string :=
  bind (strip "{" b) (fun s1 =>
  bind (read_name "query" s1) (fun s2 =>
  bind (strip ":" s2) (fun s3 =>
  bind (read_string s3) (fun qs =>
  bind (strip "," (snd qs)) (fun s5 =>
  bind (read_name "variables" s5) (fun s6 =>
  bind (strip ":{" s6) (fun s7 =>
  bind (read_name "id" s7) (fun s8 =>
  bind (strip ":" s8) (fun s9 =>
  bind (read_string s9) (fun ids =>
  if String.eqb (snd ids) "}}" then Some (fst ids) else None)))))))))).

(** The identifier a request carries in its body. *)
Definition request_id (r : request) : option string :=
  bind (body r) body_id.

(** The identifiers of a sequence, each once. *)
Fixpoint distinct (ids : list string) : list string :=
  match ids with
  | [] => []
  | id :: rest =>
      if existsb (String.eqb id) rest then distinct rest else id :: distinct rest
  end.

End Wire.

(** * Properties *)

Import JS JSON GetCartById UseCart Page Mock PageLife Wire.

(** ** Strings *)

Section Strings.

Lemma append_assoc (a b c : string) : (a ++ b) ++ c = a ++ (b ++ c).
Proof.
  induction a as [|x a IH]; simpl; [reflexivity | now rewrite IH].
Qed.

Lemma append_inv_head (p a b : string) : p ++ a = p ++ b -> a = b.
Proof.
  induction p as [|x p IH]; simpl; intros H; [exact H|].
  injection H as H. auto.
Qed.

(** Reading the escape of one code unit gives the code unit back. *)
Lemma read_chars_escape_char (c : ascii) (r : string) :
  read_chars (escape_char c ++ r) = push c (read_chars r).
Proof.
  destruct c as [[] [] [] [] [] [] [] []]; reflexivity.
Qed.

Lemma read_chars_escape (s r : string) :
  read_chars (escape s ++ String dquote r) = Some (s, r).
Proof.
  induction s as [|c s IH]; simpl.
  - reflexivity.
  - rewrite append_assoc, read_chars_escape_char, IH. reflexivity.
Qed.

(** A quoted string reads back as itself, whatever follows it. *)
Lemma read_string_quote (s r : string) :
  read_string (QuoteJSONString s ++ r) = Some (s, r).
Proof.
  unfold QuoteJSONString. simpl.
  rewrite append_assoc. simpl. apply read_chars_escape.
Qed.

End Strings.

(** ** The request body *)

Section Body.

Lemma cart_body_text (id : string) : cart_body id = Some (body_text id).
Proof.
  unfold cart_body, body_text, stringify. cbn.
  rewrite !append_assoc. reflexivity.
Qed.

(** Two identifiers with the same body are the same identifier: the
    effect's dependency [body] changes exactly when [id] does. *)
Lemma cart_body_inj (id id' : string) : cart_body id = cart_body id' -> id = id'.
Proof.
  rewrite !cart_body_text. unfold body_text. intros H.
  injection H as H.
  repeat (apply append_inv_head in H).
  assert (E : read_chars ((escape id ++ String dquote "") ++ "}}")
              = read_chars ((escape id' ++ String dquote "") ++ "}}"))
    by now rewrite H.
  rewrite !append_assoc in E. simpl in E.
  rewrite !read_chars_escape in E. congruence.
Qed.

Lemma deps_equal_iff (id id' : string) :
  areHookInputsEqual [DBody (cart_body id); DSetCart]
                     [DBody (cart_body id'); DSetCart] = String.eqb id id'.
Proof.
  pose proof (cart_body_inj id id') as I.
  rewrite !cart_body_text in *.
  cbn [areHookInputsEqual dep_is option_string_eqb andb].
  rewrite andb_true_r.
  destruct (String.eqb_spec id id') as [->|N].
  - apply String.eqb_refl.
  - apply String.eqb_neq. intros E. apply N, I. now rewrite E.
Qed.

End Body.

(** ** One render *)

Section Render.

Lemma useCart_returns_state (id : string) (w : instance) :
  fst (useCart id w) = cart w.
Proof. reflexivity. Qed.

Lemma useCart_keeps_cart (id : string) (w : instance) :
  cart (snd (useCart id w)) = cart w.
Proof.
  unfold useCart, useEffect. simpl.
  destruct (deps w) as [prev|]; [destruct (negb _)|]; reflexivity.
Qed.

(** The first render sends the request. *)
Lemma useCart_first (id : string) (w : instance) :
  deps w = None ->
  snd (useCart id w) =
    {| cart := cart w;
       deps := Some [DBody (cart_body id); DSetCart];
       inflight := inflight w ++ [cart_request (cart_body id)];
       sent := sent w ++ [cart_request (cart_body id)] |}.
Proof.
  intros D. unfold useCart, useEffect. simpl. rewrite D. reflexivity.
Qed.

(** A later render sends one exactly when the identifier differs from
    the one of the last effect. *)
Lemma useCart_next (id id' : string) (w : instance) :
  deps w = Some [DBody (cart_body id'); DSetCart] ->
  snd (useCart id w) =
    if String.eqb id id' then w
    else {| cart := cart w;
            deps := Some [DBody (cart_body id); DSetCart];
            inflight := inflight w ++ [cart_request (cart_body id)];
            sent := sent w ++ [cart_request (cart_body id)] |}.
Proof.
  intros D. unfold useCart, useEffect.
  cbv beta iota zeta delta [snd]. rewrite D, deps_equal_iff.
  destruct (String.eqb id id'); reflexivity.
Qed.

End Render.

(** ** Answers *)

Section Answers.

Lemma settle_writes (o : outcome) (w : instance) :
  fst (settle o w) = match writes o with
                     | Some v => setCart v w
                     | None => w
                     end.
Proof.
  destruct o as [|status [j|]]; simpl; try reflexivity.
  unfold on_json. destruct (nullish j); [reflexivity|].
  destruct (nullish (get j "data")); reflexivity.
Qed.

(** What one event does to the state cell. *)
Lemma step_cart (e : event) (w : instance) :
  cart (step e w) =
    match e with
    | Render _ => cart w
    | Settle k o =>
        match nth_error (inflight w) k, writes o with
        | Some _, Some v => v
        | _, _ => cart w
        end
    end.
Proof.
  destruct e as [id|k o]; simpl.
  - apply useCart_keeps_cart.
  - destruct (nth_error (inflight w) k); [|reflexivity].
    rewrite settle_writes. destruct (writes o); reflexivity.
Qed.

Lemma step_settle_deps (k : nat) (o : outcome) (w : instance) :
  deps (step (Settle k o) w) = deps w.
Proof.
  simpl. destruct (nth_error (inflight w) k); [|reflexivity].
  rewrite settle_writes. destruct (writes o); reflexivity.
Qed.

Lemma step_settle_sent (k : nat) (o : outcome) (w : instance) :
  sent (step (Settle k o) w) = sent w.
Proof.
  simpl. destruct (nth_error (inflight w) k); [|reflexivity].
  rewrite settle_writes. destruct (writes o); reflexivity.
Qed.

Lemma step_settle_inflight (k : nat) (o : outcome) (w : instance) :
  inflight (step (Settle k o) w) = remove_nth k (inflight w).
Proof.
  simpl. destruct (nth_error (inflight w) k) eqn:E.
  - rewrite settle_writes. destruct (writes o); reflexivity.
  - clear o. revert k E. induction (inflight w) as [|r l IH]; intros [|k] E;
      try reflexivity; try discriminate.
    simpl. f_equal. apply IH. exact E.
Qed.

End Answers.

(** ** Traces *)

Section Traces.

Lemma run_app (tr tr' : list event) (w : instance) :
  run (tr ++ tr') w = run tr' (run tr w).
Proof.
  revert w. induction tr as [|e tr IH]; intros w; simpl; [reflexivity | apply IH].
Qed.

(** Renders, whatever their identifiers, leave the state cell alone. *)
Lemma renders_keep_cart (ids : list string) (w : instance) :
  cart (run (map Render ids) w) = cart w.
Proof.
  revert w. induction ids as [|id ids IH]; intros w; simpl; [reflexivity|].
  rewrite IH. apply useCart_keeps_cart.
Qed.



Lemma render_sent (id : string) (last : option string) (w : instance) :
  deps w = deps_after last ->
  deps (snd (useCart id w)) = deps_after (Some id)
  /\ sent (snd (useCart id w)) =
       (sent w ++ map (fun i => cart_request (cart_body i)) (changes last [id]))%list.
Proof.
  intros D. destruct last as [id'|]; simpl in D.
  - rewrite (useCart_next id id' w D). simpl.
    destruct (String.eqb_spec id id') as [->|N]; simpl.
    + split; [exact D | now rewrite app_nil_r].
    + split; reflexivity.
  - rewrite (useCart_first id w D). split; reflexivity.
Qed.

Lemma changes_cons (last : option string) (id : string) (ids : list string) :
  changes last (id :: ids) = (changes last [id] ++ changes (Some id) ids)%list.
Proof.
  simpl. destruct last as [p|]; [destruct (String.eqb id p)|]; reflexivity.
Qed.

(** The requests a trace sends are those of the identifier changes among
    its renders, in order. *)
Lemma run_sent (tr : list event) (last : option string) (w : instance) :
  deps w = deps_after last ->
  sent (run tr w) =
    (sent w ++ map (fun i => cart_request (cart_body i)) (changes last (rendered tr)))%list.
Proof.
  revert last w. induction tr as [|[id|k o] tr IH]; intros last w D.
  - simpl. now rewrite app_nil_r.
  - cbn [run rendered step]. destruct (render_sent id last w D) as [D' S'].
    rewrite (changes_cons last id (rendered tr)), map_app, app_assoc, <- S'.
    apply IH, D'.
  - cbn [run rendered]. rewrite (IH last).
    + now rewrite step_settle_sent.
    + now rewrite step_settle_deps.
Qed.

(** The dependency array is always that of the last render. *)
Lemma run_deps (tr : list event) (w : instance) (last : option string) :
  deps w = deps_after last ->
  exists last', deps (run tr w) = deps_after last'.
Proof.
  revert w last. induction tr as [|[j|k o] tr IH]; intros w last H; cbn [run].
  - exists last. exact H.
  - apply (IH _ (Some j)). now apply (render_sent j last).
  - apply (IH _ last). now rewrite step_settle_deps.
Qed.

Lemma run_render_deps (tr : list event) (id : string) :
  deps (run (tr ++ [Render id]) mount) = deps_after (Some id).
Proof.
  rewrite run_app. cbn [run step].
  destruct (run_deps tr mount None eq_refl) as [last E].
  now apply (render_sent id last).
Qed.

(** An instance rendered one or more times with one identifier, before
    any answer: one request sent, and still in flight. *)
Lemma run_renders_same (id : string) (n : nat) :
  run (repeat (Render id) (S n)) mount =
    {| cart := VUndefined;
       deps := Some [DBody (cart_body id); DSetCart];
       inflight := [cart_request (cart_body id)];
       sent := [cart_request (cart_body id)] |}.
Proof.
  induction n as [|n IH].
  - reflexivity.
  - replace (repeat (Render id) (S (S n)))
      with (repeat (Render id) (S n) ++ [Render id])%list
      by (now rewrite <- repeat_cons).
    rewrite run_app, IH. cbn [run step].
    rewrite (useCart_next id id) by reflexivity.
    now rewrite String.eqb_refl.
Qed.

(** The state cell holds [undefined] or what some answer carried. *)
Lemma run_cart (tr : list event) (w : instance) :
  cart (run tr w) = cart w \/ In (cart (run tr w)) (answered tr).
Proof.
  revert w. induction tr as [|e tr IH]; intros w; simpl; [now left|].
  destruct (IH (step e w)) as [E|I].
  - rewrite E, step_cart. destruct e as [id|k o]; [now left|].
    destruct (nth_error (inflight w) k); [|now left].
    destruct (writes o); [right; now left | now left].
  - right. destruct e as [id|k o]; [exact I|].
    destruct (writes o); [now right | exact I].
Qed.

End Traces.

(** ** Reading back what was sent and what is shown *)

Section Reading.

Lemma strip_app (lit s : string) : strip lit (lit ++ s) = Some s.
Proof.
  induction lit as [|c lit IH]; simpl; [reflexivity|].
  now rewrite Ascii.eqb_refl.
Qed.

Lemma read_name_quote (name s : string) :
  read_name name (QuoteJSONString name ++ s) = Some s.
Proof.
  unfold read_name. now rewrite read_string_quote, String.eqb_refl.
Qed.

(** The identifier is read back from the body it was written into. *)
Lemma body_id_text (id : string) : body_id (body_text id) = Some id.
Proof.
  unfold body_id, body_text.
  rewrite (strip_app "{"). cbn [bind].
  rewrite read_name_quote. cbn [bind].
  rewrite (strip_app ":"). cbn [bind].
  rewrite read_string_quote. cbn [bind snd].
  rewrite (strip_app ","). cbn [bind].
  rewrite read_name_quote. cbn [bind].
  change (":" ++ "{" ++ QuoteJSONString "id" ++ ":" ++ QuoteJSONString id ++ "}}")
    with (":{" ++ QuoteJSONString "id" ++ ":" ++ QuoteJSONString id ++ "}}").
  rewrite (strip_app ":{"). cbn [bind].
  rewrite read_name_quote. cbn [bind].
  rewrite (strip_app ":"). cbn [bind].
  rewrite read_string_quote. reflexivity.
Qed.

Lemma request_id_cart_request (id : string) :
  request_id (cart_request (cart_body id)) = Some id.
Proof.
  unfold request_id. cbn [body cart_request].
  rewrite cart_body_text. apply body_id_text.
Qed.

(** A number is shown with the digits that read back as the number. *)
Lemma string_of_Z_read_back (n : Z) :
  option_map Z.of_int (NilZero.int_of_string (string_of_Z n)) = Some n.
Proof.
  unfold string_of_Z.
  assert (N : Z.to_int n = Decimal.norm (Z.to_int n)).
  { rewrite <- (DecimalZ.of_to n) at 1. apply DecimalZ.to_of. }
  rewrite NilZero.isi.
  - simpl. now rewrite DecimalZ.of_to.
  - intros E. rewrite E in N. discriminate N.
  - intros E. rewrite E in N. discriminate N.
Qed.

(** React refuses a child exactly when it is an object or holds one. *)
Lemma child_text_throws (v : value) :
  match child_text v with
  | Some _ => false
  | None => true
  end = holds_object v.
Proof.
  revert v. fix IH 1. intros [ | |b|n|t|elems|props]; try reflexivity.
  cbn [child_text holds_object].
  induction elems as [|x l IHl]; [reflexivity|].
  cbn [fold_right existsb]. rewrite <- IHl, <- (IH x).
  destruct (child_text x); [|reflexivity].
  destruct (fold_right _ _ l); reflexivity.
Qed.

End Reading.

(** * The claims *)

Section Claims.

(** C1. Every request [useCart id] sends is a POST to
    https://api.cartql.com with the header Content-Type: application/json
    and the body [JSON.stringify({ query, variables })]: the first render
    sends exactly this request, any render sends it or nothing, and the
    body is the text of an object whose member [query] reads back as the
    [getCartById] text and whose member [variables.id] reads back as
    [id]. *)
Theorem useCart_outbound_request (id : string) (w : instance) :
  let r := cart_request (cart_body id) in
  sent (snd (useCart id mount)) = [r]
  /\ (sent (snd (useCart id w)) = sent w
      \/ sent (snd (useCart id w)) = (sent w ++ [r])%list)
  /\ url r = "https://api.cartql.com"
  /\ method r = "POST"
  /\ headers r = [("Content-Type", "application/json")]
  /\ body r = stringify (VObj [("query", VStr getCartById);
                               ("variables", VObj [("id", VStr id)])])
  /\ body r = Some ("{" ++ QuoteJSONString "query" ++ ":"
                        ++ QuoteJSONString getCartById ++ ","
                        ++ QuoteJSONString "variables" ++ ":"
                        ++ "{" ++ QuoteJSONString "id" ++ ":"
                        ++ QuoteJSONString id ++ "}}")
  /\ (forall rest, read_string (QuoteJSONString getCartById ++ rest)
                   = Some (getCartById, rest))
  /\ (forall rest, read_string (QuoteJSONString id ++ rest) = Some (id, rest)).
Proof.
  intros r. split; [reflexivity|]. split.
  { unfold useCart, useEffect. cbn [snd].
    destruct (deps w) as [prev|]; [destruct (negb _)|]; cbn [sent fetch];
      auto. }
  do 4 (split; [reflexivity|]).
  split; [apply cart_body_text|].
  split; intros rest; apply read_string_quote.
Qed.

(** C2, as the code has it. Over the lifetime of an instance the
    requests sent are, in order, one per change of identifier among the
    renders, the first render counting as a change: a render with the
    identifier of the previous render sends nothing, a render with
    another identifier (also one seen earlier) sends exactly one
    request, the POST whose body carries the new identifier; answers
    send nothing. *)
Theorem one_request_per_identifier_change (tr : list event) (id id' : string) :
  sent (run tr mount)
    = map (fun i => {| url := "https://api.cartql.com";
                       method := "POST";
                       headers := [("Content-Type", "application/json")];
                       body := Some (body_text i) |})
          (changes None (rendered tr))
  /\ map request_id (sent (run tr mount)) = map Some (changes None (rendered tr))
  /\ sent (run (tr ++ [Render id'; Render id]) mount)
     = (sent (run (tr ++ [Render id']) mount)
        ++ (if String.eqb id id' then []
            else [{| url := "https://api.cartql.com";
                     method := "POST";
                     headers := [("Content-Type", "application/json")];
                     body := Some (body_text id) |}]))%list
  /\ run (tr ++ [Render id; Render id]) mount = run (tr ++ [Render id]) mount.
Proof.
  assert (R : forall i, cart_request (cart_body i)
                        = {| url := "https://api.cartql.com";
                             method := "POST";
                             headers := [("Content-Type", "application/json")];
                             body := Some (body_text i) |}).
  { intros i. unfold cart_request. now rewrite cart_body_text. }
  assert (S : sent (run tr mount)
              = map (fun i => cart_request (cart_body i)) (changes None (rendered tr))).
  { apply (run_sent tr None mount). reflexivity. }
  split; [|split; [|split]].
  - rewrite S. apply map_ext. exact R.
  - rewrite S, map_map. apply map_ext. exact request_id_cart_request.
  - replace (tr ++ [Render id'; Render id])%list
      with ((tr ++ [Render id']) ++ [Render id])%list
      by now rewrite <- app_assoc.
    rewrite (run_app (tr ++ [Render id'])). cbn [run step].
    rewrite (useCart_next id id' _ (run_render_deps tr id')), <- R.
    destruct (String.eqb id id'); [now rewrite app_nil_r | reflexivity].
  - replace (tr ++ [Render id; Render id])%list
      with ((tr ++ [Render id]) ++ [Render id])%list
      by now rewrite <- app_assoc.
    rewrite (run_app (tr ++ [Render id])). cbn [run step].
    rewrite (useCart_next id id _ (run_render_deps tr id)), String.eqb_refl.
    reflexivity.
Qed.

(** C2 as stated fails: the renders ["a"], ["b"], ["a"] observe two
    distinct identifiers and send three requests, the third one for
    ["a"] again. *)
Lemma one_request_per_distinct_identifier_fails :
  let tr := [Render "a"; Render "b"; Render "a"] in
  List.length (distinct (rendered tr)) = 2
  /\ map request_id (sent (run tr mount)) = [Some "a"; Some "b"; Some "a"]
  /\ List.length (sent (run tr mount)) <> List.length (distinct (rendered tr)).
Proof. repeat split. discriminate. Qed.

(** Returning to an identifier seen before is a change like any other:
    the renders ["a"], ["b"], ["a"] send three requests. *)
Example back_to_first_identifier :
  sent (run [Render "a"; Render "a"; Render "b"; Render "a"] mount)
  = map (fun i => cart_request (cart_body i)) ["a"; "b"; "a"].
Proof. reflexivity. Qed.

(** C3, as the code has it. From mount, [useCart id] returns
    [undefined] for as long as no answer has reached [setCart]; renders,
    also with another identifier, go on returning the value held (after
    a change of identifier: the cart fetched before) until an answer is
    handled; once an answer whose [data] is there and not [null] is
    parsed into [j], the hook returns [j.data.cart] (a cart, or [null]).
    With the mocked answer [{ cart: { totalItems: 10 } }] the returned
    value has [totalItems] equal to 10. *)
Theorem useCart_returns_fetched_cart (tr : list event) (id : string) :
  let w := run tr mount in
  (answered tr = [] -> fst (useCart id w) = VUndefined)
  /\ (forall ids, fst (useCart id (run (map Render ids) w)) = cart w)
  /\ (forall k status j,
        k < List.length (inflight w) ->
        nullish (get j "data") = false ->
        fst (useCart id (step (Settle k (Responded status (Some j))) w))
        = get (get j "data") "cart")
  /\ (forall k,
        k < List.length (inflight w) ->
        get (fst (useCart id (step (Settle k (ctx_data partial_payload)) w)))
            "totalItems" = VNum 10).
Proof.
  intros w.
  assert (N : forall k, k < List.length (inflight w) ->
                        exists r, nth_error (inflight w) k = Some r).
  { intros k K. destruct (nth_error (inflight w) k) eqn:E; [eauto|].
    apply nth_error_None in E. lia. }
  split; [|split; [|split]].
  - intros A. rewrite useCart_returns_state. unfold w.
    destruct (run_cart tr mount) as [E|I]; [exact E|].
    rewrite A in I. destruct I.
  - intros ids. rewrite useCart_returns_state. apply renders_keep_cart.
  - intros k status j K H. destruct (N k K) as [r E].
    rewrite useCart_returns_state, step_cart, E. cbn [writes].
    destruct j; try discriminate H. now rewrite H.
  - intros k K. destruct (N k K) as [r E].
    rewrite useCart_returns_state, step_cart, E. reflexivity.
Qed.

Lemma useCart_returns_fetched_cart_witness :
  let tr := [Render cartId; Settle 0 Failed; Render "other"; Render cartId] in
  let j := VObj [("data", VObj [("cart", VNull)])] in
  answered tr = []
  /\ 0 < List.length (inflight (run tr mount))
  /\ nullish (get j "data") = false
  /\ fst (useCart cartId (run tr mount)) = VUndefined
  /\ fst (useCart cartId (step (Settle 0 (Responded 200 (Some j))) (run tr mount)))
     = VNull
  /\ get (fst (useCart cartId
                 (step (Settle 0 (ctx_data partial_payload)) (run tr mount))))
         "totalItems" = VNum 10.
Proof.
  pose proof (useCart_returns_fetched_cart
                [Render cartId; Settle 0 Failed; Render "other"; Render cartId]
                cartId) as T.
  cbv zeta in T. destruct T as (U & _ & A & M).
  assert (K : 0 < List.length
                    (inflight (run [Render cartId; Settle 0 Failed;
                                    Render "other"; Render cartId] mount)))
    by (simpl; lia).
  split; [reflexivity|]. split; [exact K|]. split; [reflexivity|].
  split; [exact (U eq_refl)|].
  split; [exact (A 0 200%Z (VObj [("data", VObj [("cart", VNull)])]) K eq_refl)|].
  exact (M 0 K).
Defined.

(** C3 as stated fails: after the cart of ["a"] was fetched, a render
    with ["b"] returns that cart, not [undefined], while the fetch for
    ["b"] is the one request in flight. *)
Lemma earlier_cart_returned_during_fetch :
  let w := run [Render "a"; Settle 0 (ctx_data partial_payload); Render "b"] mount in
  map request_id (inflight w) = [Some "b"]
  /\ fst (useCart "b" w) = VObj [("totalItems", VNum 10)]
  /\ fst (useCart "b" w) <> VUndefined.
Proof. repeat split. discriminate. Qed.

(** C4, as the code has it. A rejected [fetch] leaves the state as it
    was, the chain ends rejected and the hook goes on returning what it
    returned.  The status of a response is never read: a response is
    handled the same whatever its status, and leaves the state alone
    when its body is not JSON. *)
Theorem network_failure_leaves_state
    (w : instance) (k : nat) (id : string) (s1 s2 : Z) (json : option value) :
  settle Failed w = (w, Rejected NetworkFailure)
  /\ cart (step (Settle k Failed) w) = cart w
  /\ sent (step (Settle k Failed) w) = sent w
  /\ fst (useCart id (step (Settle k Failed) w)) = fst (useCart id w)
  /\ settle (Responded s1 json) w = settle (Responded s2 json) w
  /\ settle (Responded s1 None) w = (w, Rejected SyntaxError)
  /\ cart (fst (settle (Responded s1 json) w))
     = match writes (Responded 200 json) with
       | Some v => v
       | None => cart w
       end.
Proof.
  split; [reflexivity|]. split; [now rewrite step_cart; destruct (nth_error _ _)|].
  split; [apply step_settle_sent|].
  split; [|split; [reflexivity|split; [reflexivity|]]].
  - rewrite !useCart_returns_state, step_cart.
    now destruct (nth_error _ _).
  - rewrite settle_writes. cbn [writes].
    destruct json as [j|]; [|reflexivity].
    destruct (nullish j); [reflexivity|].
    destruct (nullish (get j "data")); reflexivity.
Qed.

(** C4 as stated fails: a response with status 500 whose body carries
    [data.cart] does update the state. *)
Lemma non_2xx_answer_updates_state :
  fst (useCart "a" (run [Render "a"; Settle 0 (Responded 500
                          (Some (VObj [("data", partial_payload)])))] mount))
  <> VUndefined.
Proof. discriminate. Qed.

(** C5, as the code has it. After a response whose [data] member is
    there and not [null] but has no [cart] member, the hook returns
    [undefined], whatever it returned before. *)
Theorem answer_without_cart_unsets
    (w : instance) (k : nat) (status : Z) (j : value) (id : string) :
  k < List.length (inflight w) ->
  nullish (get j "data") = false ->
  get (get j "data") "cart" = VUndefined ->
  fst (useCart id (step (Settle k (Responded status (Some j))) w)) = VUndefined.
Proof.
  intros K D C. rewrite useCart_returns_state, step_cart.
  destruct (nth_error (inflight w) k) eqn:E.
  - cbn [writes]. destruct j; try discriminate D. cbn [nullish].
    now rewrite D, C.
  - apply nth_error_None in E. lia.
Qed.

Lemma answer_without_cart_unsets_witness :
  let w := run [Render "a"; Settle 0 (ctx_data partial_payload); Render "b"] mount in
  let j := VObj [("data", VObj [])] in
  cart w = VObj [("totalItems", VNum 10)]
  /\ fst (useCart "b" (step (Settle 0 (Responded 200 (Some j))) w)) = VUndefined.
Proof.
  split; [reflexivity|].
  apply (answer_without_cart_unsets
           (run [Render "a"; Settle 0 (ctx_data partial_payload); Render "b"] mount)
           0 200 (VObj [("data", VObj [])]) "b").
  - simpl. lia.
  - reflexivity.
  - reflexivity.
Defined.

(** C5 as stated fails: a response whose body has no [data] member, and
    so no [data.cart], leaves the cart of an earlier answer in place. *)
Lemma answer_without_data_keeps_cart :
  fst (useCart "b" (run [Render "a"; Settle 0 (ctx_data partial_payload);
                         Render "b"; Settle 0 (Responded 200 (Some (VObj [])))]
                        mount))
  <> VUndefined.
Proof. discriminate. Qed.

(** C6, as the code has it. The value the hook exposes is [undefined]
    or exactly the [data.cart] of an answer handled so far, taken as it
    came: it has the full shape of a cart when every answer carried
    one. *)
Theorem exposed_cart_is_an_answer (tr : list event) (id : string) :
  let v := fst (useCart id (run tr mount)) in
  (v = VUndefined \/ In v (answered tr))
  /\ (forallb is_Cart (answered tr) = true -> v = VUndefined \/ is_Cart v = true).
Proof.
  intros v. unfold v. rewrite useCart_returns_state.
  assert (A : cart (run tr mount) = VUndefined
              \/ In (cart (run tr mount)) (answered tr))
    by apply (run_cart tr mount).
  split; [exact A|]. intros F.
  destruct A as [E|I]; [now left | right].
  rewrite forallb_forall in F. apply F, I.
Qed.

Lemma exposed_cart_is_an_answer_witness :
  let tr := [Render cartId; Settle 0 (ctx_data full_payload)] in
  let tr' := [Render cartId; Settle 0 (ctx_data partial_payload)] in
  forallb is_Cart (answered tr) = true
  /\ (fst (useCart cartId (run tr mount)) = VUndefined
      \/ is_Cart (fst (useCart cartId (run tr mount))) = true)
  /\ forallb is_Cart (answered tr') = false
  /\ (fst (useCart cartId (run tr' mount)) = VUndefined
      \/ In (fst (useCart cartId (run tr' mount))) (answered tr')).
Proof.
  split; [reflexivity|]. split.
  - apply (exposed_cart_is_an_answer
             [Render cartId; Settle 0 (ctx_data full_payload)] cartId).
    reflexivity.
  - split; [reflexivity|].
    apply (exposed_cart_is_an_answer
             [Render cartId; Settle 0 (ctx_data partial_payload)] cartId).
Defined.

(** C6 as stated fails: after the mocked answer
    [{ cart: { totalItems: 10 } }] the hook exposes a value that is
    neither absent nor a full cart (no [subTotal], no [items]). *)
Lemma partial_cart_exposed :
  let v := fst (useCart cartId
                  (run [Render cartId; Settle 0 (ctx_data partial_payload)] mount)) in
  ~ (v = VUndefined \/ is_Cart v = true).
Proof. intros v [E|E]; discriminate E. Qed.



(** C8. When the parsed body is an object with no [data] member, the
    handler throws on reading [data.cart]: the chain ends rejected with a
    TypeError that nothing handles, and the state is exactly what it
    was, so the hook goes on returning the earlier value. *)
Theorem answer_without_data_throws
    (w : instance) (k : nat) (status : Z) (props : list (string * value))
    (id : string) :
  lookup "data" props = None ->
  settle (Responded status (Some (VObj props))) w = (w, Rejected TypeError)
  /\ cart (step (Settle k (Responded status (Some (VObj props)))) w) = cart w
  /\ deps (step (Settle k (Responded status (Some (VObj props)))) w) = deps w
  /\ fst (useCart id (step (Settle k (Responded status (Some (VObj props)))) w))
     = fst (useCart id w).
Proof.
  intros L.
  assert (W : writes (Responded status (Some (VObj props))) = None).
  { cbn [writes nullish get]. now rewrite L. }
  split.
  { cbn [settle]. unfold on_json. cbn [nullish get]. now rewrite L. }
  split; [rewrite step_cart, W; now destruct (nth_error _ _)|].
  split; [apply step_settle_deps|].
  rewrite !useCart_returns_state, step_cart, W. now destruct (nth_error _ _).
Qed.

Lemma answer_without_data_throws_witness :
  let w := run [Render "a"; Settle 0 (ctx_data partial_payload); Render "b"] mount in
  let props := [("errors", VArr [VObj [("message", VStr "no cart")]])] in
  lookup "data" props = None
  /\ fst (useCart "b" (step (Settle 0 (Responded 200 (Some (VObj props)))) w))
     = VObj [("totalItems", VNum 10)].
Proof.
  split; [reflexivity|].
  change (VObj [("totalItems", VNum 10)])
    with (fst (useCart "b"
                 (run [Render "a"; Settle 0 (ctx_data partial_payload); Render "b"]
                      mount))).
  apply (answer_without_data_throws
           (run [Render "a"; Settle 0 (ctx_data partial_payload); Render "b"] mount)
           0 200 [("errors", VArr [VObj [("message", VStr "no cart")]])] "b").
  reflexivity.
Defined.

(** C9. [useCart] checks nothing about its identifier: for every string,
    the empty one included, the first render returns [undefined] and
    sends the request whose [variables.id] is that string; there is no
    outcome in which it rejects the identifier. *)
Theorem useCart_does_not_validate_id (id : string) :
  useCart id mount =
    (VUndefined,
     {| cart := VUndefined;
        deps := Some [DBody (cart_body id); DSetCart];
        inflight := [cart_request (cart_body id)];
        sent := [cart_request (cart_body id)] |})
  /\ body (cart_request (cart_body id)) = Some (body_text id)
  /\ (forall rest, read_string (QuoteJSONString id ++ rest) = Some (id, rest))
  /\ sent (snd (useCart EmptyString mount)) = [cart_request (cart_body EmptyString)]
  /\ QuoteJSONString EmptyString = String dquote (String dquote EmptyString).
Proof.
  split; [reflexivity|]. split; [apply cart_body_text|].
  split; [intros rest; apply read_string_quote|].
  split; reflexivity.
Qed.

(** C10, as the code has it. [Home] renders unless [cart?.totalItems]
    is an object (or an array holding one), and then it throws.  With
    the cart [undefined] or [null] the text is ['Total items: '] with no
    number; with a cart whose [totalItems] is a number it is
    ['Total items: '] followed by its decimal digits, which read back
    as the number; with a string it is followed by the string, and by
    nothing when [totalItems] is missing, [null] or a boolean. *)
Theorem Home_renders_total_items (w : instance) :
  let count := get_opt (cart w) "totalItems" in
  match fst (Home w) with
  | Some _ => false
  | None => true
  end = holds_object count
  /\ (cart w = VUndefined \/ cart w = VNull ->
      fst (Home w) = Some "Total items: ")
  /\ (forall props n,
        cart w = VObj props ->
        lookup "totalItems" props = Some (VNum n) ->
        safe_integer n = true ->
        fst (Home w)
        = Some ("Total items: " ++ NilZero.string_of_int (Z.to_int n))
        /\ option_map Z.of_int
             (NilZero.int_of_string (NilZero.string_of_int (Z.to_int n)))
           = Some n)
  /\ (forall t, count = VStr t -> fst (Home w) = Some ("Total items: " ++ t))
  /\ (count = VUndefined \/ count = VNull \/ (exists b, count = VBool b) ->
      fst (Home w) = Some "Total items: ")
  /\ (forall ps, count = VObj ps -> fst (Home w) = None).
Proof.
  intros count.
  assert (H : fst (Home w)
              = match child_text count with
                | Some t => Some ("Total items: " ++ t)
                | None => None
                end) by reflexivity.
  split; [|split; [|split; [|split; [|split]]]].
  - rewrite H, <- child_text_throws. now destruct (child_text count).
  - intros [E|E]; rewrite H; unfold count; rewrite E; reflexivity.
  - intros props n E L _. split; [|apply (string_of_Z_read_back n)].
    rewrite H. unfold count, get_opt. rewrite E. cbn [nullish get].
    rewrite L. reflexivity.
  - intros t E. rewrite H, E. reflexivity.
  - intros [E|[E|[b E]]]; rewrite H, E; reflexivity.
  - intros ps E. rewrite H, E. reflexivity.
Qed.

Lemma Home_renders_total_items_witness :
  let w := setCart (VObj [("totalItems", VNum 10)]) mount in
  let w0 := setCart (VObj [("id", VStr "c"); ("totalItems", VNum 0)]) mount in
  let wmax := setCart (VObj [("totalItems", VNum MAX_SAFE_INTEGER)]) mount in
  safe_integer 10 = true
  /\ fst (Home w) = Some "Total items: 10"
  /\ fst (Home w0) = Some "Total items: 0"
  /\ fst (Home wmax) = Some "Total items: 9007199254740991"
  /\ fst (Home mount) = Some "Total items: "
  /\ fst (Home (setCart VNull mount)) = Some "Total items: "
  /\ fst (Home (setCart (VObj []) mount)) = Some "Total items: ".
Proof.
  split; [reflexivity|].
  split.
  { destruct (Home_renders_total_items
                (setCart (VObj [("totalItems", VNum 10)]) mount))
      as (_ & _ & P & _).
    apply (P [("totalItems", VNum 10)] 10%Z); reflexivity. }
  split.
  { destruct (Home_renders_total_items
                (setCart (VObj [("id", VStr "c"); ("totalItems", VNum 0)]) mount))
      as (_ & _ & P & _).
    apply (P [("id", VStr "c"); ("totalItems", VNum 0)] 0%Z); reflexivity. }
  split.
  { destruct (Home_renders_total_items
                (setCart (VObj [("totalItems", VNum MAX_SAFE_INTEGER)]) mount))
      as (_ & _ & P & _).
    apply (P [("totalItems", VNum MAX_SAFE_INTEGER)] MAX_SAFE_INTEGER);
      reflexivity. }
  split.
  { destruct (Home_renders_total_items mount) as (_ & N & _).
    apply N. now left. }
  split.
  { destruct (Home_renders_total_items (setCart VNull mount)) as (_ & N & _).
    apply N. now right. }
  destruct (Home_renders_total_items (setCart (VObj []) mount))
    as (_ & _ & _ & _ & U & _).
  apply U. now left.
Defined.

(** C10 as stated fails: the hook hands on the cart as it was fetched,
    and with an answer whose [totalItems] is an object the page, which
    rendered before the answer, throws. *)
Lemma Home_throws_on_fetched_cart :
  let bad := VObj [("cart", VObj [("totalItems", VObj [])])] in
  fst (Home (run [Render cartId] mount)) = Some "Total items: "
  /\ fst (Home (run [Render cartId; Settle 0 (ctx_data bad)] mount)) = None
  /\ ~ (exists t, fst (Home (run [Render cartId; Settle 0 (ctx_data bad)] mount))
                  = Some t).
Proof.
  split; [reflexivity|]. split; [reflexivity|].
  intros [t E]. discriminate E.
Qed.

(** The end-to-end scenario of the tests: the page is rendered, the
    mocked service answers, and the page shows the count. *)
Example Home_end_to_end :
  fst (Home mount) = Some "Total items: "
  /\ fst (Home (run [Render cartId; Settle 0 (ctx_data partial_payload)] mount))
     = Some "Total items: 10"
  /\ fst (Home (run [Render cartId; Settle 0 (ctx_data full_payload)] mount))
     = Some "Total items: 10"
  /\ sent (snd (Home (snd (Home mount)))) = [cart_request (cart_body cartId)].
Proof. repeat split. Qed.

End Claims.

(** * Further properties of the hook and of the page *)

Section Further.


Lemma remove_nth_incl {A : Type} (k : nat) (l : list A) :
  incl (remove_nth k l) l.
Proof.
  revert k. induction l as [|x l IH]; intros [|k]; simpl.
  - apply incl_refl.
  - apply incl_refl.
  - apply incl_tl, incl_refl.
  - apply incl_cons; [now left|]. apply incl_tl, IH.
Qed.

Lemma remove_nth_length {A : Type} (k : nat) (l : list A) :
  List.length (remove_nth k l) <= List.length l.
Proof.
  revert k. induction l as [|x l IH]; intros [|k]; simpl; try lia.
  specialize (IH k). lia.
Qed.

Lemma changes_length (last : option string) (ids : list string) :
  List.length (changes last ids) <= List.length ids.
Proof.
  revert last. induction ids as [|id ids IH]; intros last; simpl; [lia|].
  destruct (match last with Some p => String.eqb id p | None => false end);
    simpl; specialize (IH (Some id)); lia.
Qed.

Lemma changes_In (last : option string) (ids : list string) (id : string) :
  In id (changes last ids) -> In id ids.
Proof.
  revert last. induction ids as [|i ids IH]; intros last; simpl; [tauto|].
  destruct (match last with Some p => String.eqb i p | None => false end);
    simpl; intros H.
  - right. exact (IH _ H).
  - destruct H as [H|H]; [now left | right; exact (IH _ H)].
Qed.

Lemma changes_repeat (id : string) (n : nat) :
  changes (Some id) (repeat id n) = [].
Proof.
  induction n as [|n IH]; simpl; [reflexivity|].
  now rewrite String.eqb_refl.
Qed.

(** The page's trace is the hook's trace with every paint a render of
    the fixed identifier. *)
Lemma page_run_run (tr : list page_event) (w : instance) :
  page_run tr w = run (map hook_event tr) w.
Proof.
  revert w. induction tr as [|[|k o] tr IH]; intros w; simpl; try apply IH.
  reflexivity.
Qed.

Lemma page_run_app (tr tr' : list page_event) (w : instance) :
  page_run (tr ++ tr') w = page_run tr' (page_run tr w).
Proof.
  revert w. induction tr as [|e tr IH]; intros w; simpl; [reflexivity | apply IH].
Qed.

Lemma page_text_cart (w : instance) :
  page_text w = match child_text (get_opt (cart w) "totalItems") with
                | Some t => Some ("Total items: " ++ t)
                | None => None
                end.
Proof. reflexivity. Qed.

Lemma paints_keep_cart (m : nat) (w : instance) :
  cart (page_run (repeat Paint m) w) = cart w.
Proof.
  revert w. induction m as [|m IH]; intros w; simpl; [reflexivity|].
  rewrite IH. apply (useCart_keeps_cart cartId).
Qed.

Lemma answer_cart (k : nat) (status : Z) (j : value) (w : instance) :
  k < List.length (inflight w) ->
  nullish (get j "data") = false ->
  cart (step (Settle k (Responded status (Some j))) w) = get (get j "data") "cart".
Proof.
  intros K D. rewrite step_cart.
  destruct (nth_error (inflight w) k) eqn:E.
  - cbn [writes]. destruct j; try discriminate D. now rewrite D.
  - apply nth_error_None in E. lia.
Qed.

Lemma no_control_app (a b : string) :
  no_control (a ++ b) = no_control a && no_control b.
Proof.
  induction a as [|c a IH]; simpl; [reflexivity|].
  now rewrite IH, andb_assoc.
Qed.

Lemma no_control_escape (s : string) : no_control (escape s) = true.
Proof.
  induction s as [|c s IH]; simpl; [reflexivity|].
  rewrite no_control_app, IH, andb_true_r.
  destruct c as [[] [] [] [] [] [] [] []]; reflexivity.
Qed.

Lemma get_num_not_nullish (v : value) (k : string) (x : value) :
  get v k = x -> x <> VUndefined -> nullish v = false.
Proof.
  intros G N. destruct v; try reflexivity; simpl in G; congruence.
Qed.

Lemma quiet_answered (tr : list page_event) :
  forallb quiet tr = true -> answered (map hook_event tr) = [].
Proof.
  induction tr as [|[|k o] tr IH]; simpl; intros H; auto.
  destruct (writes o); [discriminate|]. auto.
Qed.

End Further.

(** * What else the code does *)

Section Extras.



(** X3. At every point of an instance's lifetime the requests in flight
    are among the requests sent, there are no more of them than were
    sent, no more were sent than there were renders, and every request
    sent is the one of an identifier that was rendered. *)
Theorem inflight_requests_were_sent (tr : list event) :
  let w := run tr mount in
  incl (inflight w) (sent w)
  /\ List.length (inflight w) <= List.length (sent w)
  /\ List.length (sent w) <= List.length (rendered tr)
  /\ (forall r, In r (sent w) ->
        exists id, In id (rendered tr) /\ r = cart_request (cart_body id)).
Proof.
  assert (G : forall t w0,
             incl (inflight w0) (sent w0) ->
             List.length (inflight w0) <= List.length (sent w0) ->
             incl (inflight (run t w0)) (sent (run t w0))
             /\ List.length (inflight (run t w0)) <= List.length (sent (run t w0))).
  { induction t as [|[id|k o] t IH]; intros w0 I L; cbn [run].
    - split; assumption.
    - apply IH.
      + unfold step, useCart, useEffect. cbn [snd].
        destruct (deps w0) as [prev|]; [destruct (negb _)|]; cbn [inflight sent fetch];
          try exact I;
          (apply incl_app; [apply incl_appl, I | apply incl_appr, incl_refl]).
      + unfold step, useCart, useEffect. cbn [snd].
        destruct (deps w0) as [prev|]; [destruct (negb _)|]; cbn [inflight sent fetch];
          try exact L; rewrite !length_app; simpl; lia.
    - apply IH.
      + rewrite step_settle_inflight, step_settle_sent.
        intros r H. apply I. exact (remove_nth_incl k _ r H).
      + rewrite step_settle_inflight, step_settle_sent.
        pose proof (remove_nth_length k (inflight w0)). lia. }
  intros w. unfold w.
  destruct (G tr mount) as [I L]; [intros r [] | simpl; lia |].
  split; [exact I|]. split; [exact L|].
  rewrite (run_sent tr None mount eq_refl). cbn [sent mount app].
  split.
  - rewrite length_map. apply changes_length.
  - intros r H. apply in_map_iff in H. destruct H as (id & <- & H).
    exists id. split; [exact (changes_In _ _ _ H) | reflexivity].
Qed.

(** X4. The page asks for its cart once: over any sequence of paints
    and answers, the requests sent are the single request for the fixed
    identifier as soon as the page was painted, and none before. *)
Theorem Home_sends_one_request (tr : list page_event) :
  sent (page_run tr mount)
    = if existsb is_paint tr then [cart_request (cart_body cartId)] else [].
Proof.
  rewrite page_run_run, (run_sent _ None mount eq_refl). cbn [sent mount app].
  assert (G : forall last,
             changes last (rendered (map hook_event tr))
             = if existsb is_paint tr
               then changes last [cartId]
               else []).
  { induction tr as [|[|k o] tr IH]; intros last; cbn [map hook_event rendered existsb is_paint orb].
    - reflexivity.
    - rewrite changes_cons, IH.
      destruct (existsb is_paint tr).
      + cbn [changes]. rewrite String.eqb_refl. apply app_nil_r.
      + apply app_nil_r.
    - apply IH. }
  rewrite G. now destruct (existsb is_paint tr).
Qed.

(** X5. Whatever the page went through, once an answer whose
    [data.cart.totalItems] is the number [n] is handled the page shows
    ['Total items: '] followed by the decimal digits of [n] (digits that
    read back as [n]), and goes on showing it however often it is painted
    again. *)
Theorem Home_shows_answered_count
    (tr : list page_event) (k : nat) (status : Z) (j : value) (n : Z) (m : nat) :
  k < List.length (inflight (page_run tr mount)) ->
  get (get (get j "data") "cart") "totalItems" = VNum n ->
  safe_integer n = true ->
  page_text (page_run (tr ++ Answer k (Responded status (Some j)) :: repeat Paint m)
                      mount)
  = Some ("Total items: " ++ NilZero.string_of_int (Z.to_int n))
  /\ option_map Z.of_int
       (NilZero.int_of_string (NilZero.string_of_int (Z.to_int n)))
     = Some n.
Proof.
  intros K T _. split; [|apply (string_of_Z_read_back n)].
  assert (C : nullish (get (get j "data") "cart") = false)
    by (apply (get_num_not_nullish _ _ _ T); discriminate).
  assert (D : nullish (get j "data") = false).
  { apply (get_num_not_nullish _ "cart" _ eq_refl).
    intros E. rewrite E in C. discriminate. }
  rewrite page_run_app. cbn [page_run page_step].
  rewrite page_text_cart, paints_keep_cart, (answer_cart k status j _ K D).
  unfold get_opt. rewrite C, T. reflexivity.
Qed.

Lemma Home_shows_answered_count_witness :
  let tr := [Paint; Paint] in
  let j := VObj [("data", full_payload)] in
  let j0 := VObj [("data", VObj [("cart", VObj [("totalItems", VNum 0)])])] in
  0 < List.length (inflight (page_run tr mount))
  /\ get (get (get j "data") "cart") "totalItems" = VNum 10
  /\ safe_integer 10 = true
  /\ page_text (page_run (tr ++ Answer 0 (Responded 200 (Some j)) :: repeat Paint 2)
                         mount)
     = Some "Total items: 10"
  /\ page_text (page_run (tr ++ Answer 0 (Responded 200 (Some j0)) :: repeat Paint 1)
                         mount)
     = Some "Total items: 0".
Proof.
  split; [simpl; lia|]. split; [reflexivity|]. split; [reflexivity|].
  split.
  - apply (Home_shows_answered_count [Paint; Paint] 0 200
             (VObj [("data", full_payload)]) 10 2);
      [simpl; lia | reflexivity | reflexivity].
  - apply (Home_shows_answered_count [Paint; Paint] 0 200
             (VObj [("data", VObj [("cart", VObj [("totalItems", VNum 0)])])]) 0 1);
      [simpl; lia | reflexivity | reflexivity].
Defined.

(** X6. The hook hands on what it received: once an answer whose
    [data.cart.totalItems] is an object is handled, painting the page
    throws, since an object is no valid child of the element. *)
Theorem Home_throws_on_object_count
    (tr : list page_event) (k : nat) (status : Z) (j : value)
    (ps : list (string * value)) (m : nat) :
  k < List.length (inflight (page_run tr mount)) ->
  get (get (get j "data") "cart") "totalItems" = VObj ps ->
  page_text (page_run (tr ++ Answer k (Responded status (Some j)) :: repeat Paint m)
                      mount)
  = None.
Proof.
  intros K T.
  assert (C : nullish (get (get j "data") "cart") = false)
    by (apply (get_num_not_nullish _ _ _ T); discriminate).
  assert (D : nullish (get j "data") = false).
  { apply (get_num_not_nullish _ "cart" _ eq_refl).
    intros E. rewrite E in C. discriminate. }
  rewrite page_run_app. cbn [page_run page_step].
  rewrite page_text_cart, paints_keep_cart, (answer_cart k status j _ K D).
  unfold get_opt. rewrite C, T. reflexivity.
Qed.

Lemma Home_throws_on_object_count_witness :
  let j := VObj [("data", VObj [("cart", VObj [("totalItems", VObj [])])])] in
  page_text (page_run [Paint] mount) = Some "Total items: "
  /\ 0 < List.length (inflight (page_run [Paint] mount))
  /\ get (get (get j "data") "cart") "totalItems" = VObj []
  /\ page_text (page_run ([Paint] ++ Answer 0 (Responded 200 (Some j)) :: repeat Paint 0)
                         mount)
     = None.
Proof.
  split; [reflexivity|]. split; [simpl; lia|]. split; [reflexivity|].
  apply (Home_throws_on_object_count [Paint] 0 200
           (VObj [("data", VObj [("cart", VObj [("totalItems", VObj [])])])]) [] 0).
  - simpl. lia.
  - reflexivity.
Defined.

(** X7. The page cannot tell why it has no count.  As long as no answer
    reached [setCart] (nothing answered yet, or only failures) it shows
    ['Total items: '] with no number, and it shows the same once the
    service has answered that there is no cart ([data.cart] is
    [null]). *)
Theorem page_shows_no_count_alike
    (tr tr' : list page_event) (k : nat) (status : Z) (j : value) :
  forallb quiet tr = true ->
  k < List.length (inflight (page_run tr' mount)) ->
  nullish (get j "data") = false ->
  get (get j "data") "cart" = VNull ->
  page_text (page_run tr mount) = Some "Total items: "
  /\ page_text (page_run (tr' ++ [Answer k (Responded status (Some j))]) mount)
     = Some "Total items: ".
Proof.
  intros Q K D C. split.
  - rewrite page_text_cart, page_run_run.
    destruct (run_cart (map hook_event tr) mount) as [E|I].
    + rewrite E. reflexivity.
    + rewrite (quiet_answered tr Q) in I. destruct I.
  - rewrite page_run_app. cbn [page_run page_step].
    rewrite page_text_cart, (answer_cart k status j _ K D), C. reflexivity.
Qed.

Lemma page_shows_no_count_alike_witness :
  let tr := [Paint; Answer 0 Failed; Paint; Answer 0 (Responded 502 None);
             Answer 0 (Responded 200 (Some (VObj []))); Paint] in
  let tr' := [Paint; Answer 0 (ctx_data partial_payload); Paint] in
  let j := VObj [("data", VObj [("cart", VNull)])] in
  forallb quiet tr = true
  /\ page_text (page_run tr' mount) = Some "Total items: 10"
  /\ page_text (page_run tr mount) = Some "Total items: "
  /\ page_text (page_run ([Paint] ++ [Answer 0 (Responded 200 (Some j))]) mount)
     = Some "Total items: ".
Proof.
  split; [reflexivity|]. split; [reflexivity|].
  apply (page_shows_no_count_alike
           [Paint; Answer 0 Failed; Paint; Answer 0 (Responded 502 None);
            Answer 0 (Responded 200 (Some (VObj []))); Paint]
           [Paint] 0 200 (VObj [("data", VObj [("cart", VNull)])]));
    try reflexivity.
  simpl. lia.
Defined.

(** X8. The serialized body determines the identifier, whatever
    characters it holds: two bodies are the same string exactly when the
    identifiers are, and so are the dependency arrays of the effect. *)
Theorem body_distinguishes_identifiers (id id' : string) :
  option_string_eqb (cart_body id) (cart_body id') = String.eqb id id'
  /\ areHookInputsEqual [DBody (cart_body id); DSetCart]
                        [DBody (cart_body id'); DSetCart]
     = String.eqb id id'.
Proof.
  pose proof (deps_equal_iff id id') as E. split; [|exact E].
  rewrite <- E. cbn [areHookInputsEqual dep_is andb]. now rewrite andb_true_r.
Qed.

(** X9. The body travels on one line: the operation text holds line
    breaks, the identifier may hold any control character, yet no code
    unit of the body is one, since every one of them is escaped. *)
Theorem body_has_no_control_character (id : string) :
  no_control getCartById = false
  /\ exists b, cart_body id = Some b /\ no_control b = true.
Proof.
  split; [reflexivity|].
  exists (body_text id). split; [apply cart_body_text|].
  unfold body_text, QuoteJSONString.
  repeat (rewrite no_control_app || cbn [no_control append]).
  rewrite !no_control_escape. reflexivity.
Qed.

End Extras.
